(** * svgr_types: response envelopes and the conversion contract

    A shallow embedding of [src/index.ts] of [@sudobility/svgr_types].

    The module exports three structural types ([ConvertRequest],
    [ConvertResult], [ConvertResponse]) and two helpers,
    [successResponse] and [errorResponse], that wrap a payload or an error
    text in a [BaseResponse] envelope stamped with
    [new Date().toISOString()].

    The helpers read the wall clock, so they are embedded in a small monad
    over a world that holds the clock; the ECMAScript built-ins they call
    ([Date], [Date.prototype.toISOString]) follow ECMA-262, section 21.4. *)

From stdpp Require Import base gmap strings.
From Stdlib Require Import ZArith Lia Bool List Ascii String.
From Stdlib Require PrimFloat.

Local Open Scope Z_scope.

(* ===================================================================== *)
(** * ECMAScript time values (ECMA-262, 21.4.1) *)
(* ===================================================================== *)

Module Time.

Definition msPerSecond : Z := 1000.
Definition msPerMinute : Z := 60000.
Definition msPerHour : Z := 3600000.
Definition msPerDay : Z := 86400000.

(** A time value is an integral number of milliseconds since the epoch,
    at most 8.64e15 in magnitude. *)
Definition maxTime : Z := 8640000000000000.

Definition is_time_value (t : Z) : Prop := - maxTime <= t <= maxTime.

Definition is_time_valueb (t : Z) : bool :=
  (- maxTime <=? t) && (t <=? maxTime).

(** [Day(t) = floor(t / msPerDay)]; [Z.div] rounds towards minus
    infinity for a positive divisor, as ECMAScript's floor does. *)
Definition Day (t : Z) : Z := t / msPerDay.

Definition TimeWithinDay (t : Z) : Z := t mod msPerDay.

Definition DaysInYear (y : Z) : Z :=
  if y mod 400 =? 0 then 366
  else if y mod 100 =? 0 then 365
  else if y mod 4 =? 0 then 366
  else 365.

Definition DayFromYear (y : Z) : Z :=
  365 * (y - 1970) + (y - 1969) / 4 - (y - 1901) / 100 + (y - 1601) / 400.

Definition TimeFromYear (y : Z) : Z := msPerDay * DayFromYear y.

(** [YearFromTime(t)] is the largest [y] with [TimeFromYear(y) <= t].
    It is computed from an estimate over the mean Gregorian year
    (146097 days in 400 years), corrected by at most one year;
    [YearFromTime_spec] below shows that this is the year ECMA-262
    asks for. *)
Definition YearFromDay (d : Z) : Z :=
  let y0 := 1970 + (400 * d) / 146097 in
  if d <? DayFromYear y0 then y0 - 1
  else if DayFromYear (y0 + 1) <=? d then y0 + 1
  else y0.

Definition YearFromTime (t : Z) : Z := YearFromDay (Day t).

Definition DayWithinYear (t : Z) : Z :=
  Day t - DayFromYear (YearFromTime t).

(** [InLeapYear(t)] is 1 in a leap year and 0 otherwise. *)
Definition InLeapYear (t : Z) : Z :=
  if DaysInYear (YearFromTime t) =? 366 then 1 else 0.

(** Number of days of the year that precede month [m] (0 = January). *)
Definition DaysBeforeMonth (leap m : Z) : Z :=
  if m <=? 0 then 0
  else if m =? 1 then 31
  else if m =? 2 then 59 + leap
  else if m =? 3 then 90 + leap
  else if m =? 4 then 120 + leap
  else if m =? 5 then 151 + leap
  else if m =? 6 then 181 + leap
  else if m =? 7 then 212 + leap
  else if m =? 8 then 243 + leap
  else if m =? 9 then 273 + leap
  else if m =? 10 then 304 + leap
  else if m =? 11 then 334 + leap
  else 365 + leap.

(** The table of [MonthFromTime]: the month of day [d] of a year. *)
Definition MonthFromDayWithinYear (leap d : Z) : Z :=
  if d <? 31 then 0
  else if d <? 59 + leap then 1
  else if d <? 90 + leap then 2
  else if d <? 120 + leap then 3
  else if d <? 151 + leap then 4
  else if d <? 181 + leap then 5
  else if d <? 212 + leap then 6
  else if d <? 243 + leap then 7
  else if d <? 273 + leap then 8
  else if d <? 304 + leap then 9
  else if d <? 334 + leap then 10
  else 11.

Definition MonthFromTime (t : Z) : Z :=
  MonthFromDayWithinYear (InLeapYear t) (DayWithinYear t).

(** [DateFromTime(t)]: the day of the month, from 1. *)
Definition DateFromTime (t : Z) : Z :=
  DayWithinYear t - DaysBeforeMonth (InLeapYear t) (MonthFromTime t) + 1.

Definition HourFromTime (t : Z) : Z := (t / msPerHour) mod 24.
Definition MinFromTime (t : Z) : Z := (t / msPerMinute) mod 60.
Definition SecFromTime (t : Z) : Z := (t / msPerSecond) mod 60.
Definition msFromTime (t : Z) : Z := t mod msPerSecond.

(** [MakeTime], [MakeDay] and [MakeDate] on integral, in-range
    arguments (month 0..11). *)
Definition MakeTime (hour min sec ms : Z) : Z :=
  hour * msPerHour + min * msPerMinute + sec * msPerSecond + ms.

Definition MakeDay (year month date : Z) : Z :=
  DayFromYear year
  + DaysBeforeMonth (if DaysInYear year =? 366 then 1 else 0) month
  + date - 1.

Definition MakeDate (day time : Z) : Z := day * msPerDay + time.

Definition DaysInMonth (year month : Z) : Z :=
  let leap := if DaysInYear year =? 366 then 1 else 0 in
  DaysBeforeMonth leap (month + 1) - DaysBeforeMonth leap month.

End Time.

Import Time.

(* ===================================================================== *)
(** * Date objects and [Date.prototype.toISOString] (ECMA-262, 21.4.4.36) *)
(* ===================================================================== *)

Module JsDate.

(** A Date object holds its [[DateValue]]: a time value, or NaN
    ([None]) for an invalid date. *)
Record Date : Type := mkDate { DateValue : option Z }.

Inductive Exception : Type :=
| RangeError (msg : string).

(** The outcome of evaluating an expression: a value or a throw. *)
Inductive Completion (A : Type) : Type :=
| Normal (a : A)
| Throw (e : Exception).
Arguments Normal {A} a.
Arguments Throw {A} e.

Definition digit (n : Z) : ascii := ascii_of_N (48 + Z.to_N n).

(** The decimal digit of [n] at position [k], counted from the units. *)
Definition decimal_digit (n : Z) (k : nat) : Z := (n / 10 ^ Z.of_nat k) mod 10.

(** The decimal digits of [n], most significant first, zero-padded to
    [width] characters; every caller passes [0 <= n < 10 ^ width]. *)
Fixpoint pad (width : nat) (n : Z) : string :=
  match width with
  | O => EmptyString
  | S w => String (digit (decimal_digit n w)) (pad w n)
  end.

(** Years 0 to 9999 are written with four digits, every other year as
    an expanded year: a sign and six digits. *)
Definition year_string (y : Z) : string :=
  if (0 <=? y) && (y <=? 9999) then pad 4 y
  else if 0 <=? y then String "+" (pad 6 y)
  else String "-" (pad 6 (- y)).

Definition time_string (t : Z) : string :=
  (year_string (YearFromTime t) ++ "-" ++ pad 2 (MonthFromTime t + 1)
    ++ "-" ++ pad 2 (DateFromTime t)
    ++ "T" ++ pad 2 (HourFromTime t)
    ++ ":" ++ pad 2 (MinFromTime t)
    ++ ":" ++ pad 2 (SecFromTime t)
    ++ "." ++ pad 3 (msFromTime t) ++ "Z")%string.

(** [toISOString] throws a RangeError on an invalid date. *)
Definition toISOString (d : Date) : Completion string :=
  match DateValue d with
  | None => Throw (RangeError "Invalid time value")
  | Some tv => Normal (time_string tv)
  end.

(** ** Reading a date-time string back

    The part of [Date.parse] that reads the interchange format
    [toISOString] writes: a four-digit year or an expanded year, and
    every other field present, in UTC. *)

Definition digit_value (c : ascii) : option Z :=
  let n := Z.of_N (N_of_ascii c) in
  if (48 <=? n) && (n <=? 57) then Some (n - 48) else None.

Definition is_digit (c : ascii) : bool :=
  if digit_value c is Some _ then true else false.

(** Read exactly [width] decimal digits, most significant first. *)
Fixpoint take_digits (width : nat) (acc : Z) (s : string)
  : option (Z * string) :=
  match width with
  | O => Some (acc, s)
  | S w =>
      match s with
      | String c s' => d ← digit_value c; take_digits w (10 * acc + d) s'
      | EmptyString => None
      end
  end.

Definition expect (c : ascii) (s : string) : option string :=
  match s with
  | String c' s' => if Ascii.eqb c c' then Some s' else None
  | EmptyString => None
  end.

(** The expanded year [-000000] is not a valid year. *)
Definition parse_year (s : string) : option (Z * string) :=
  match s with
  | String "+" s' => take_digits 6 0 s'
  | String "-" s' =>
      '(y, r) ← take_digits 6 0 s';
      if y =? 0 then None else Some (- y, r)
  | _ => take_digits 4 0 s
  end.

Definition valid_fields (y mo d h mi sec ms : Z) : bool :=
  (1 <=? mo) && (mo <=? 12)
  && (1 <=? d) && (d <=? DaysInMonth y (mo - 1))
  && ((h <=? 23) || ((h =? 24) && (mi =? 0) && (sec =? 0) && (ms =? 0)))
  && (mi <=? 59) && (sec <=? 59).

(** [Date.parse]: the time value a date-time string denotes, [None]
    (NaN) when the string is not one or is out of range. *)
Definition Date_parse (s : string) : option Z :=
  '(y, s) ← parse_year s;
  s ← expect "-" s; '(mo, s) ← take_digits 2 0 s;
  s ← expect "-" s; '(d, s) ← take_digits 2 0 s;
  s ← expect "T" s; '(h, s) ← take_digits 2 0 s;
  s ← expect ":" s; '(mi, s) ← take_digits 2 0 s;
  s ← expect ":" s; '(sec, s) ← take_digits 2 0 s;
  s ← expect "." s; '(ms, s) ← take_digits 3 0 s;
  s ← expect "Z" s;
  if s is EmptyString then
    if valid_fields y mo d h mi sec ms then
      let tv := MakeDate (MakeDay y (mo - 1) d) (MakeTime h mi sec ms) in
      if is_time_valueb tv then Some tv else None
    else None
  else None.

(** ** The shape of a date-time string

    A template is matched character by character: the field letters
    [Y M D H m s] stand for one decimal digit each, every other
    character for itself. *)
Definition is_field_letter (c : ascii) : bool :=
  existsb (Ascii.eqb c) ("Y" :: "M" :: "D" :: "H" :: "m" :: "s" :: nil)%char.

Fixpoint matches_template (tpl s : string) : bool :=
  match tpl, s with
  | EmptyString, EmptyString => true
  | String p tpl', String c s' =>
      (if is_field_letter p then is_digit c else Ascii.eqb p c)
      && matches_template tpl' s'
  | _, _ => false
  end.

(** The Date Time String Format of ECMA-262 (21.4.1.32): the year is
    four digits, or a sign and six digits. *)
Definition simple_format : string := "YYYY-MM-DDTHH:mm:ss.sssZ".
Definition expanded_plus_format : string := "+YYYYYY-MM-DDTHH:mm:ss.sssZ".
Definition expanded_minus_format : string := "-YYYYYY-MM-DDTHH:mm:ss.sssZ".

Definition is_date_time_string (s : string) : bool :=
  matches_template simple_format s
  || matches_template expanded_plus_format s
  || matches_template expanded_minus_format s.

(** The years that are written with four digits. *)
Definition four_digit_year (t : Z) : Prop := 0 <= YearFromTime t <= 9999.

End JsDate.

Import JsDate.

(* ===================================================================== *)
(** * The world: a wall clock *)
(* ===================================================================== *)

(** The only part of the environment the module touches is the wall
    clock.  [clock w k] is the time value the [k]-th read of the clock
    returns and [reads w] counts the reads made so far, so a program that
    reads the clock twice sees [clock w (reads w)] and then
    [clock w (S (reads w))]. *)
Record World : Type := mkWorld {
  clock : nat -> Z;
  reads : nat
}.

Definition now (w : World) : Z := clock w (reads w).

Definition tick (w : World) : World :=
  {| clock := clock w; reads := S (reads w) |}.

(** Every reading is a time value. *)
Definition clock_valid (w : World) : Prop :=
  forall k, is_time_value (clock w k).

(** The clock never runs backwards. *)
Definition clock_monotone (w : World) : Prop :=
  forall i j, (i <= j)%nat -> clock w i <= clock w j.

(** Computations that may read the clock and may throw. *)
Definition JS (A : Type) : Type := World -> Completion A * World.

#[global] Instance JS_ret : MRet JS :=
  fun A (a : A) w => (Normal a, w).

#[global] Instance JS_bind : MBind JS :=
  fun A B (k : A -> JS B) (m : JS A) w =>
    match m w with
    | (Normal a, w') => k a w'
    | (Throw e, w') => (Throw e, w')
    end.

Definition lift {A : Type} (c : Completion A) : JS A := fun w => (c, w).

(** One read of the clock: the current time value. *)
Definition read_clock : JS Z :=
  fun w => (Normal (now w), tick w).

(** [new Date()]: a Date object for the current time value. *)
Definition Date_new : JS Date :=
  tv ← read_clock; mret (mkDate (Some tv)).

(** [new Date().toISOString()] *)
Definition current_timestamp : JS string :=
  d ← Date_new; lift (toISOString d).

(* ===================================================================== *)
(** * The contract types of [index.ts] *)
(* ===================================================================== *)

(** JavaScript numbers are IEEE 754 doubles. *)
Abbreviation number := PrimFloat.float (only parsing).

(** Modelled from the spec: [BaseResponse<T>] is imported from
    [@sudobility/types] and its declaration is not part of this
    repository; the fields are the ones the documentation of
    [ConvertResponse] lists: [success: boolean], [data?: T],
    [error?: string], [timestamp: string].  An optional property that the
    object does not have is [None]. *)
Record BaseResponse (T : Type) : Type := mkBaseResponse {
  success : bool;
  data : option T;
  error : option string;
  timestamp : string
}.
Arguments mkBaseResponse {T} _ _ _ _.
Arguments success {T} _.
Arguments data {T} _.
Arguments error {T} _.
Arguments timestamp {T} _.

(** The own property names of an envelope, in creation order. *)
Definition ownKeys {T : Type} (r : BaseResponse T) : list string :=
  ("success" :: nil)%string
  ++ (if data r is Some _ then "data" :: nil else nil)%string
  ++ (if error r is Some _ then "error" :: nil else nil)%string
  ++ ("timestamp" :: nil)%string.

(** [key in r] / [r.hasOwnProperty(key)] *)
Definition hasProperty {T : Type} (r : BaseResponse T) (key : string) : bool :=
  bool_decide (key ∈ ownKeys r).

(** [interface ConvertResult] *)
Record ConvertResult : Type := mkConvertResult {
  svg : string;
  width : number;
  height : number
}.

(** [type ConvertResponse = BaseResponse<ConvertResult>] *)
Definition ConvertResponse : Type := BaseResponse ConvertResult.

(** [interface ConvertRequest] *)
Record ConvertRequest : Type := mkConvertRequest {
  original : string;
  filename : option string;
  quality : option number;
  transparentBg : option bool
}.

(* ===================================================================== *)
(** * The helper functions of [index.ts] *)
(* ===================================================================== *)

(** [export function successResponse<T>(data: T): BaseResponse<T>] *)
Definition successResponse {T : Type} (data : T) : JS (BaseResponse T) :=
  ts ← current_timestamp;
  mret {| success := true;
          data := Some data;
          error := None;
          timestamp := ts |}.

(** [export function errorResponse(error: string): BaseResponse<never>] *)
Definition errorResponse (error : string) : JS (BaseResponse Empty_set) :=
  ts ← current_timestamp;
  mret {| success := false;
          data := None;
          error := Some error;
          timestamp := ts |}.

(** The first revision of the file (lines 1 to 57): the same helpers
    without documentation, and a [ConvertRequest] that has no [quality]
    and no [transparentBg]. *)
Module Rev1.

Record ConvertRequest : Type := mkConvertRequest {
  original : string;
  filename : option string
}.

Definition successResponse {T : Type} (data : T) : JS (BaseResponse T) :=
  ts ← current_timestamp;
  mret {| success := true;
          data := Some data;
          error := None;
          timestamp := ts |}.

Definition errorResponse (error : string) : JS (BaseResponse Empty_set) :=
  ts ← current_timestamp;
  mret {| success := false;
          data := None;
          error := Some error;
          timestamp := ts |}.

End Rev1.

(* ===================================================================== *)
(** * Observing envelopes and requests *)
(* ===================================================================== *)

(** The invariant of an envelope: [data] is present exactly when
    [success] is true, [error] exactly when it is false, and [timestamp]
    is always there. *)
Definition envelope_invariant {T : Type} (r : BaseResponse T) : bool :=
  Bool.eqb (hasProperty r "data") (success r)
  && Bool.eqb (hasProperty r "error") (negb (success r))
  && xorb (hasProperty r "data") (hasProperty r "error")
  && hasProperty r "timestamp".

(** A call of one of the two constructors. *)
Inductive Call (T : Type) : Type :=
| CallSuccess (payload : T)
| CallError (message : string).
Arguments CallSuccess {T} payload.
Arguments CallError {T} message.

(** The timestamp of the envelope a call returns. *)
Definition timestamp_of {T : Type} (c : Call T) : JS string :=
  match c with
  | CallSuccess v => r ← successResponse v; mret (timestamp r)
  | CallError s => r ← errorResponse s; mret (timestamp r)
  end.

(** Two calls, one after the other. *)
Definition consecutive {T : Type} (c1 c2 : Call T) : JS (string * string) :=
  ts1 ← timestamp_of c1; ts2 ← timestamp_of c2; mret (ts1, ts2).

(** A call between two reads of the clock, as the test
    [includes an ISO timestamp] brackets it. *)
Definition bracket {A : Type} (call : JS A) : JS (Z * A * Z) :=
  before ← read_clock; r ← call; after ← read_clock;
  mret (before, r, after).

(** The test [includes an ISO timestamp] of the repository: the
    timestamp of an envelope, compared as a string, lies between the
    timestamps taken before and after the call. *)
Definition test_includes_an_ISO_timestamp : JS bool :=
  before ← current_timestamp;
  result ← successResponse "test"%string;
  after ← current_timestamp;
  mret (String.leb before (timestamp result)
        && String.leb (timestamp result) after).

(** ** Structural typing of plain objects

    The values a JSON-like object holds, and an object as the finite map
    of its own properties. *)
Inductive JsValue : Type :=
| JsUndefined
| JsNull
| JsBoolean (b : bool)
| JsNumber (x : number)
| JsString (s : string).

Abbreviation JsObject := (gmap string JsValue) (only parsing).

Definition is_string (v : JsValue) : bool :=
  if v is JsString _ then true else false.
Definition is_number (v : JsValue) : bool :=
  if v is JsNumber _ then true else false.
Definition is_boolean (v : JsValue) : bool :=
  if v is JsBoolean _ then true else false.

(** A required property [key: ty] must be there with a value of type
    [ty]; an optional property [key?: ty] may be missing or undefined. *)
Definition required (ty : JsValue -> bool) (o : JsObject) (key : string) : bool :=
  match o !! key with
  | Some v => ty v
  | None => false
  end.

Definition optional (ty : JsValue -> bool) (o : JsObject) (key : string) : bool :=
  match o !! key with
  | Some JsUndefined | None => true
  | Some v => ty v
  end.

(** Assignability to [interface ConvertRequest] (lines 95 to 104). *)
Definition is_ConvertRequest (o : JsObject) : bool :=
  required is_string o "original"
  && optional is_string o "filename"
  && optional is_number o "quality"
  && optional is_boolean o "transparentBg".

(** Assignability to the first revision's [ConvertRequest]. *)
Definition is_ConvertRequest_rev1 (o : JsObject) : bool :=
  required is_string o "original"
  && optional is_string o "filename".

(** Set property [key] when the optional value is given. *)
Definition set_optional {A : Type} (inj : A -> JsValue) (key : string)
    (v : option A) (o : JsObject) : JsObject :=
  match v with
  | Some a => <[key := inj a]> o
  | None => o
  end.

(** The object literal that carries a request: absent fields are left
    out. *)
Definition object_of_request (r : ConvertRequest) : JsObject :=
  set_optional JsBoolean "transparentBg" (transparentBg r)
    (set_optional JsNumber "quality" (quality r)
       (set_optional JsString "filename" (filename r)
          {[ "original"%string := JsString (original r) ]})).

(** ** The request of the first revision

    The object literal that carries a request of the first revision. *)
Definition object_of_request_rev1 (r : Rev1.ConvertRequest) : JsObject :=
  set_optional JsString "filename" (Rev1.filename r)
    {[ "original"%string := JsString (Rev1.original r) ]}.

(** ** The other tests of the repository

    [toEqual] on a result compares the text and, as [Object.is] does,
    the two numbers. *)
Definition ConvertResult_eqb (a b : ConvertResult) : bool :=
  String.eqb (svg a) (svg b)
  && PrimFloat.Leibniz.eqb (width a) (width b)
  && PrimFloat.Leibniz.eqb (height a) (height b).

Definition option_eqb {A : Type} (eqb : A -> A -> bool) (a b : option A) : bool :=
  match a, b with
  | Some x, Some y => eqb x y
  | None, None => true
  | _, _ => false
  end.

(** [successResponse: returns a success response with data], for a
    payload and the equality [toEqual] decides on it. *)
Definition test_returns_a_success_response_with_data {T : Type}
    (toEqual : T -> T -> bool) (payload : T) : JS bool :=
  result ← successResponse payload;
  mret (Bool.eqb (success result) true
        && option_eqb toEqual (data result) (Some payload)
        && hasProperty result "timestamp").

(** [errorResponse: returns an error response with message] *)
Definition test_returns_an_error_response_with_message
    (message : string) : JS bool :=
  result ← errorResponse message;
  mret (Bool.eqb (success result) false
        && option_eqb String.eqb (error result) (Some message)
        && hasProperty result "timestamp").

(** [errorResponse: does not include data field] *)
Definition test_does_not_include_data_field (message : string) : JS bool :=
  result ← errorResponse message;
  mret (negb (hasProperty result "data")).

(** ** Any number of calls

    The timestamps of a list of calls made one after the other. *)
Fixpoint timestamps_of {T : Type} (cs : list (Call T)) : JS (list string) :=
  match cs with
  | nil => mret nil
  | c :: cs' =>
      ts ← timestamp_of c; rest ← timestamps_of cs'; mret (ts :: rest)
  end.

(** The world after [n] more reads of the clock. *)
Definition ticks (n : nat) (w : World) : World :=
  {| clock := clock w; reads := reads w + n |}.

(** ** Some worlds

    A clock that starts at 2026-02-23T12:34:56.789Z and advances by one
    millisecond a read for a second; a clock that passes from the year
    9999 to the year 10000 between the first read and the second; a clock
    stopped at the first instant of the year 10000; and a clock that is
    set back five milliseconds after the first read. *)
Definition world_2026 : World :=
  {| clock := fun k => 1771850096789 + Z.of_nat (Nat.min k 1000); reads := 0 |}.

Definition world_end_of_9999 : World :=
  {| clock := fun k => 253402300799999 + Z.of_nat (Nat.min k 1); reads := 0 |}.

Definition world_year_10000 : World :=
  {| clock := fun _ => 253402300800000; reads := 0 |}.

Definition world_set_back : World :=
  {| clock := fun k => if (k =? 0)%nat then 10 else 5; reads := 0 |}.

(* ===================================================================== *)
(** * Sanity checks of the built-ins *)
(* ===================================================================== *)

Example epoch_year : YearFromTime 0 = 1970. Proof. reflexivity. Qed.
Example before_epoch :
  (YearFromTime (-1), MonthFromTime (-1), DateFromTime (-1)) = (1969, 11, 31).
Proof. reflexivity. Qed.
Example leap_day_2024 :
  (YearFromTime 1709164800000, MonthFromTime 1709164800000,
   DateFromTime 1709164800000) = (2024, 1, 29).
Proof. reflexivity. Qed.
Example iso_epoch : time_string 0 = "1970-01-01T00:00:00.000Z"%string.
Proof. reflexivity. Qed.
Example iso_doc_example :
  time_string 1771850096789 = "2026-02-23T12:34:56.789Z"%string.
Proof. reflexivity. Qed.
Example iso_year_10000 :
  time_string 253402300800000 = "+010000-01-01T00:00:00.000Z"%string.
Proof. reflexivity. Qed.
Example iso_before_year_0 :
  time_string (-62167219200001) = "-000001-12-31T23:59:59.999Z"%string.
Proof. reflexivity. Qed.
Example iso_max :
  time_string maxTime = "+275760-09-13T00:00:00.000Z"%string.
Proof. reflexivity. Qed.
Example iso_min :
  time_string (- maxTime) = "-271821-04-20T00:00:00.000Z"%string.
Proof. reflexivity. Qed.
Example parse_doc_example :
  Date_parse "2026-02-23T12:34:56.789Z" = Some 1771850096789.
Proof. reflexivity. Qed.
Example parse_expanded :
  Date_parse "-271821-04-20T00:00:00.000Z" = Some (- maxTime).
Proof. reflexivity. Qed.
Example parse_out_of_range :
  Date_parse "+275760-09-13T00:00:00.001Z" = None.
Proof. reflexivity. Qed.
Example parse_bad_day : Date_parse "2023-02-29T00:00:00.000Z" = None.
Proof. reflexivity. Qed.
Example format_doc_example :
  matches_template simple_format "2026-02-23T12:34:56.789Z" = true.
Proof. reflexivity. Qed.
Example format_no_millis :
  is_date_time_string "2026-02-23T12:34:56Z" = false.
Proof. reflexivity. Qed.

(* ===================================================================== *)
(** * The calendar *)
(* ===================================================================== *)

(** Linear arithmetic with floor division and remainder by constants. *)
Ltac zdiv := Z.to_euclidean_division_equations; lia.

Ltac case_cmp :=
  repeat match goal with
         | |- context [?a =? ?b] => destruct (Z.eqb_spec a b)
         | |- context [?a <? ?b] => destruct (Z.ltb_spec a b)
         | |- context [?a <=? ?b] => destruct (Z.leb_spec a b)
         end.

(** Evaluate the month table at a literal month. *)
Ltac eval_table :=
  repeat match goal with
         | |- context [DaysBeforeMonth ?l ?m] =>
             let v := eval vm_compute in (DaysBeforeMonth l m) in
             change (DaysBeforeMonth l m) with v
         end.

Section Calendar.

Lemma DaysInYear_cases y : DaysInYear y = 365 \/ DaysInYear y = 366.
Proof. unfold DaysInYear. case_cmp; auto. Qed.

Lemma DayFromYear_succ y :
  DayFromYear (y + 1) = DayFromYear y + DaysInYear y.
Proof. unfold DayFromYear, DaysInYear. case_cmp; zdiv. Qed.

Lemma DayFromYear_lt y1 y2 : y1 < y2 -> DayFromYear y1 < DayFromYear y2.
Proof. unfold DayFromYear. zdiv. Qed.

Lemma DayFromYear_le y1 y2 : y1 <= y2 -> DayFromYear y1 <= DayFromYear y2.
Proof.
  intros H. destruct (Z.eq_dec y1 y2) as [->|Hne]; [lia|].
  apply Z.lt_le_incl, DayFromYear_lt. lia.
Qed.

(** The estimate of [YearFromDay] is off by at most one year, so the
    corrected year is the one whose days contain [d]. *)
Lemma YearFromDay_spec d :
  DayFromYear (YearFromDay d) <= d < DayFromYear (YearFromDay d + 1).
Proof.
  unfold YearFromDay; cbv zeta.
  set (y0 := 1970 + 400 * d / 146097).
  assert (Hy0 : 146097 * (y0 - 1970) <= 400 * d < 146097 * (y0 - 1969))
    by (subst y0; zdiv).
  clearbody y0.
  destruct (Z.ltb_spec d (DayFromYear y0)) as [H1|H1];
    [|destruct (Z.leb_spec (DayFromYear (y0 + 1)) d) as [H2|H2]].
  - replace (y0 - 1 + 1) with y0 by lia.
    split; [|exact H1]. unfold DayFromYear. zdiv.
  - split; [exact H2|]. unfold DayFromYear. zdiv.
  - split; assumption.
Qed.

(** ECMA-262: [YearFromTime(t)] is the largest [y] such that
    [TimeFromYear(y) <= t]. *)
Lemma YearFromDay_unique d y :
  DayFromYear y <= d < DayFromYear (y + 1) -> YearFromDay d = y.
Proof.
  intros [Hlo Hhi]. destruct (YearFromDay_spec d) as [Slo Shi].
  destruct (Z.lt_trichotomy (YearFromDay d) y) as [Hlt|[Heq|Hgt]]; [|exact Heq|].
  - pose proof (DayFromYear_le (YearFromDay d + 1) y ltac:(lia)). lia.
  - pose proof (DayFromYear_le (y + 1) (YearFromDay d) ltac:(lia)). lia.
Qed.

Lemma YearFromTime_spec t :
  TimeFromYear (YearFromTime t) <= t /\
  forall y, TimeFromYear y <= t -> y <= YearFromTime t.
Proof.
  unfold TimeFromYear, YearFromTime.
  destruct (YearFromDay_spec (Day t)) as [Slo Shi]. split.
  - unfold Day, msPerDay in *. zdiv.
  - intros y Hy.
    destruct (Z.le_gt_cases y (YearFromDay (Day t))) as [H|H]; [exact H|].
    pose proof (DayFromYear_le (YearFromDay (Day t) + 1) y ltac:(lia)).
    unfold Day, msPerDay in *. zdiv.
Qed.

Lemma YearFromDay_mono d1 d2 : d1 <= d2 -> YearFromDay d1 <= YearFromDay d2.
Proof.
  intros H. destruct (YearFromDay_spec d1) as [A1 B1].
  destruct (YearFromDay_spec d2) as [A2 B2].
  destruct (Z.le_gt_cases (YearFromDay d1) (YearFromDay d2)) as [L|G]; [exact L|].
  pose proof (DayFromYear_le (YearFromDay d2 + 1) (YearFromDay d1) ltac:(lia)).
  lia.
Qed.

Lemma Day_mono t1 t2 : t1 <= t2 -> Day t1 <= Day t2.
Proof. unfold Day, msPerDay. intros H. zdiv. Qed.

Lemma YearFromTime_mono t1 t2 : t1 <= t2 -> YearFromTime t1 <= YearFromTime t2.
Proof. intros H. apply YearFromDay_mono, Day_mono, H. Qed.

(** Time values span the years -271821 to 275760. *)
Lemma YearFromTime_range t :
  is_time_value t -> -271821 <= YearFromTime t <= 275760.
Proof.
  intros [Hlo Hhi]. split.
  - change (-271821) with (YearFromTime (- maxTime)).
    apply YearFromTime_mono, Hlo.
  - change 275760 with (YearFromTime maxTime).
    apply YearFromTime_mono, Hhi.
Qed.

Lemma InLeapYear_cases t : InLeapYear t = 0 \/ InLeapYear t = 1.
Proof. unfold InLeapYear. case_cmp; auto. Qed.

Lemma DaysInYear_InLeapYear t :
  DaysInYear (YearFromTime t) = 365 + InLeapYear t.
Proof.
  unfold InLeapYear. destruct (DaysInYear_cases (YearFromTime t)) as [H|H];
    rewrite H; reflexivity.
Qed.

Lemma DayWithinYear_range t : 0 <= DayWithinYear t < 365 + InLeapYear t.
Proof.
  rewrite <- DaysInYear_InLeapYear. unfold DayWithinYear, YearFromTime.
  destruct (YearFromDay_spec (Day t)) as [Slo Shi].
  rewrite DayFromYear_succ in Shi. lia.
Qed.

Lemma MonthFromTime_range t : 0 <= MonthFromTime t <= 11.
Proof. unfold MonthFromTime, MonthFromDayWithinYear. case_cmp; lia. Qed.

Lemma month_table leap d :
  0 <= leap <= 1 -> 0 <= d < 365 + leap ->
  DaysBeforeMonth leap (MonthFromDayWithinYear leap d) <= d
  < DaysBeforeMonth leap (MonthFromDayWithinYear leap d + 1).
Proof.
  intros Hl Hd. assert (Hc : leap = 0 \/ leap = 1) by lia.
  destruct Hc; subst leap; unfold MonthFromDayWithinYear; case_cmp;
    eval_table; lia.
Qed.

(** The day of the year lies within its month. *)
Lemma DayWithinYear_month t :
  DaysBeforeMonth (InLeapYear t) (MonthFromTime t) <= DayWithinYear t
  < DaysBeforeMonth (InLeapYear t) (MonthFromTime t + 1).
Proof.
  apply month_table; [|apply DayWithinYear_range].
  destruct (InLeapYear_cases t); lia.
Qed.

Lemma DateFromTime_range t :
  1 <= DateFromTime t <= DaysInMonth (YearFromTime t) (MonthFromTime t).
Proof.
  pose proof (DayWithinYear_month t) as Hm.
  unfold DateFromTime, DaysInMonth; cbv zeta.
  fold (InLeapYear t). lia.
Qed.

Lemma DaysInMonth_le_31 y m : 0 <= m <= 11 -> DaysInMonth y m <= 31.
Proof.
  intros Hm. unfold DaysInMonth; cbv zeta.
  assert (Hc : m = 0 \/ m = 1 \/ m = 2 \/ m = 3 \/ m = 4 \/ m = 5 \/ m = 6
               \/ m = 7 \/ m = 8 \/ m = 9 \/ m = 10 \/ m = 11) by lia.
  destruct (DaysInYear y =? 366);
    repeat (destruct Hc as [->|Hc]; [eval_table; lia|]);
    subst m; eval_table; lia.
Qed.

Lemma DateFromTime_le_31 t : 1 <= DateFromTime t <= 31.
Proof.
  pose proof (DateFromTime_range t).
  pose proof (DaysInMonth_le_31 (YearFromTime t) _ (MonthFromTime_range t)).
  lia.
Qed.

Lemma HourFromTime_range t : 0 <= HourFromTime t <= 23.
Proof. unfold HourFromTime. zdiv. Qed.
Lemma MinFromTime_range t : 0 <= MinFromTime t <= 59.
Proof. unfold MinFromTime. zdiv. Qed.
Lemma SecFromTime_range t : 0 <= SecFromTime t <= 59.
Proof. unfold SecFromTime. zdiv. Qed.
Lemma msFromTime_range t : 0 <= msFromTime t <= 999.
Proof. unfold msFromTime, msPerSecond. zdiv. Qed.

(** A time value is rebuilt from its broken-down fields. *)
Lemma MakeTime_fields t :
  MakeTime (HourFromTime t) (MinFromTime t) (SecFromTime t) (msFromTime t)
  = TimeWithinDay t.
Proof.
  unfold MakeTime, HourFromTime, MinFromTime, SecFromTime, msFromTime,
    TimeWithinDay, msPerHour, msPerMinute, msPerSecond, msPerDay.
  zdiv.
Qed.

Lemma MakeDay_fields t :
  MakeDay (YearFromTime t) (MonthFromTime t) (DateFromTime t) = Day t.
Proof.
  unfold MakeDay, DateFromTime. fold (InLeapYear t).
  unfold DayWithinYear. lia.
Qed.

Lemma MakeDate_fields t :
  MakeDate (MakeDay (YearFromTime t) (MonthFromTime t) (DateFromTime t))
    (MakeTime (HourFromTime t) (MinFromTime t) (SecFromTime t) (msFromTime t))
  = t.
Proof.
  rewrite MakeTime_fields, MakeDay_fields.
  unfold MakeDate, Day, TimeWithinDay, msPerDay. zdiv.
Qed.

End Calendar.

(* ===================================================================== *)
(** * Decimal fields *)
(* ===================================================================== *)

Section Digits.

Lemma decimal_digit_range n k : 0 <= decimal_digit n k <= 9.
Proof. unfold decimal_digit. zdiv. Qed.

(** Case analysis over the ten values of a decimal digit. *)
Lemma digit_cases (P : Z -> Prop) :
  P 0 -> P 1 -> P 2 -> P 3 -> P 4 -> P 5 -> P 6 -> P 7 -> P 8 -> P 9 ->
  forall d, 0 <= d <= 9 -> P d.
Proof.
  intros P0 P1 P2 P3 P4 P5 P6 P7 P8 P9 d Hd.
  assert (Hc : d = 0 \/ d = 1 \/ d = 2 \/ d = 3 \/ d = 4 \/ d = 5 \/ d = 6
               \/ d = 7 \/ d = 8 \/ d = 9) by lia.
  repeat (destruct Hc as [->|Hc]; [assumption|]). subst d; assumption.
Qed.

Lemma digit_value_digit d : 0 <= d <= 9 -> digit_value (digit d) = Some d.
Proof. revert d. apply digit_cases; reflexivity. Qed.

Lemma is_digit_digit d : 0 <= d <= 9 -> is_digit (digit d) = true.
Proof. intros H. unfold is_digit. rewrite digit_value_digit; auto. Qed.

Lemma digit_compare a b :
  0 <= a <= 9 -> 0 <= b <= 9 ->
  Ascii.compare (digit a) (digit b) = (a ?= b).
Proof.
  intros Ha. revert b. revert a Ha.
  apply (digit_cases (fun a => forall b, 0 <= b <= 9 ->
    Ascii.compare (digit a) (digit b) = (a ?= b)));
    apply digit_cases; reflexivity.
Qed.

Lemma append_String c s r : (String c s ++ r)%string = String c (s ++ r)%string.
Proof. reflexivity. Qed.

Lemma append_empty r : (EmptyString ++ r)%string = r.
Proof. reflexivity. Qed.

Lemma pad_length w n : String.length (pad w n) = w.
Proof. induction w as [|w IH]; simpl; [reflexivity|now rewrite IH]. Qed.

(** The digits below position [S k] are the digit at [k] and those below. *)
Lemma mod_pow10_succ n k :
  n mod 10 ^ Z.of_nat (S k)
  = decimal_digit n k * 10 ^ Z.of_nat k + n mod 10 ^ Z.of_nat k.
Proof.
  unfold decimal_digit. rewrite Nat2Z.inj_succ, Z.pow_succ_r by lia.
  assert (Hp : 0 < 10 ^ Z.of_nat k) by (apply Z.pow_pos_nonneg; lia).
  rewrite (Z.mul_comm 10), Z.rem_mul_r by lia. lia.
Qed.

Lemma mod_pow10_range n k : 0 <= n mod 10 ^ Z.of_nat k < 10 ^ Z.of_nat k.
Proof. apply Z.mod_pos_bound, Z.pow_pos_nonneg; lia. Qed.

(** Reading back the digits of a padded field. *)
Lemma take_digits_pad_gen w n acc rest :
  take_digits w acc (pad w n ++ rest)
  = Some (acc * 10 ^ Z.of_nat w + n mod 10 ^ Z.of_nat w, rest).
Proof.
  revert acc. induction w as [|w IH]; intros acc.
  - cbn [pad take_digits]. rewrite append_empty, Z.mod_1_r. do 2 f_equal. lia.
  - cbn [pad]. rewrite append_String. cbn [take_digits].
    rewrite digit_value_digit by apply decimal_digit_range.
    cbn [mbind option_bind]. rewrite IH, mod_pow10_succ.
    rewrite (Nat2Z.inj_succ w), Z.pow_succ_r by lia. do 2 f_equal. lia.
Qed.

Lemma take_digits_pad w n rest :
  0 <= n < 10 ^ Z.of_nat w ->
  take_digits w 0 (pad w n ++ rest) = Some (n, rest).
Proof.
  intros H. rewrite take_digits_pad_gen, Z.mod_small by exact H.
  reflexivity.
Qed.

(** Comparing two numbers by quotient, then by remainder. *)
Lemma compare_lex p q1 r1 q2 r2 :
  0 <= r1 < p -> 0 <= r2 < p ->
  (q1 * p + r1 ?= q2 * p + r2)
  = match q1 ?= q2 with Eq => r1 ?= r2 | c => c end.
Proof.
  intros H1 H2.
  destruct (Z.compare_spec q1 q2) as [->|Hq|Hq].
  - destruct (Z.compare_spec r1 r2); [apply Z.compare_eq_iff|apply Z.compare_lt_iff|apply Z.compare_gt_iff]; lia.
  - apply Z.compare_lt_iff. nia.
  - apply Z.compare_gt_iff. nia.
Qed.

(** Padded fields of one width compare as the numbers they hold. *)
Lemma compare_pad_gen w a b s1 s2 :
  String.compare (pad w a ++ s1) (pad w b ++ s2)
  = match a mod 10 ^ Z.of_nat w ?= b mod 10 ^ Z.of_nat w with
    | Eq => String.compare s1 s2
    | c => c
    end.
Proof.
  induction w as [|w IH].
  - cbn [pad]. rewrite !append_empty, !Z.mod_1_r. reflexivity.
  - cbn [pad]. rewrite !append_String. cbn [String.compare].
    rewrite digit_compare by apply decimal_digit_range.
    rewrite IH, !mod_pow10_succ.
    rewrite compare_lex by apply mod_pow10_range.
    destruct (decimal_digit a w ?= decimal_digit b w); reflexivity.
Qed.

Lemma compare_pad w a b s1 s2 :
  0 <= a < 10 ^ Z.of_nat w -> 0 <= b < 10 ^ Z.of_nat w ->
  String.compare (pad w a ++ s1) (pad w b ++ s2)
  = match a ?= b with Eq => String.compare s1 s2 | c => c end.
Proof.
  intros Ha Hb. rewrite compare_pad_gen, !Z.mod_small by assumption.
  reflexivity.
Qed.

End Digits.

(* ===================================================================== *)
(** * The shape of [toISOString]'s result *)
(* ===================================================================== *)

(** Spell out the characters of padded fields and concatenations. *)
Ltac spell :=
  cbn [pad]; repeat (rewrite append_String || rewrite append_empty).

Section Format.

Lemma matches_field p tpl d s :
  is_field_letter p = true -> 0 <= d <= 9 ->
  matches_template (String p tpl) (String (digit d) s)
  = matches_template tpl s.
Proof.
  intros Hp Hd. cbn [matches_template]. rewrite Hp, is_digit_digit by exact Hd.
  reflexivity.
Qed.

Lemma matches_literal c tpl s :
  is_field_letter c = false ->
  matches_template (String c tpl) (String c s) = matches_template tpl s.
Proof.
  intros Hc. cbn [matches_template]. rewrite Hc, Ascii.eqb_refl. reflexivity.
Qed.

Ltac match_chars :=
  repeat first
    [ rewrite matches_literal by reflexivity
    | rewrite matches_field by first [reflexivity | apply decimal_digit_range] ].

Lemma time_string_simple t :
  four_digit_year t -> matches_template simple_format (time_string t) = true.
Proof.
  intros [Hlo Hhi]. unfold time_string, year_string, simple_format.
  destruct (Z.leb_spec 0 (YearFromTime t)); [|lia].
  destruct (Z.leb_spec (YearFromTime t) 9999); [|lia].
  cbn [andb]. spell. match_chars. reflexivity.
Qed.

Lemma time_string_expanded_plus t :
  9999 < YearFromTime t ->
  matches_template expanded_plus_format (time_string t) = true.
Proof.
  intros Hy. unfold time_string, year_string, expanded_plus_format.
  destruct (Z.leb_spec 0 (YearFromTime t)); [|lia].
  destruct (Z.leb_spec (YearFromTime t) 9999); [lia|].
  cbn [andb]. spell. match_chars. reflexivity.
Qed.

Lemma time_string_expanded_minus t :
  YearFromTime t < 0 ->
  matches_template expanded_minus_format (time_string t) = true.
Proof.
  intros Hy. unfold time_string, year_string, expanded_minus_format.
  destruct (Z.leb_spec 0 (YearFromTime t)); [lia|].
  cbn [andb]. spell. match_chars. reflexivity.
Qed.

(** Whatever the time value, the result has the Date Time String Format,
    with three digits of milliseconds and the UTC designator. *)
Lemma time_string_format t : is_date_time_string (time_string t) = true.
Proof.
  unfold is_date_time_string.
  destruct (Z.lt_ge_cases (YearFromTime t) 0) as [Hneg|Hpos].
  - rewrite time_string_expanded_minus by exact Hneg.
    now rewrite !orb_true_r.
  - destruct (Z.le_gt_cases (YearFromTime t) 9999) as [Hle|Hgt].
    + rewrite time_string_simple by (split; assumption). reflexivity.
    + rewrite time_string_expanded_plus by lia. now rewrite orb_true_r.
Qed.

Lemma matches_template_length tpl s :
  matches_template tpl s = true -> String.length s = String.length tpl.
Proof.
  revert s. induction tpl as [|p tpl IH]; intros [|c s]; cbn [matches_template];
    try discriminate; [reflexivity|].
  intros H. apply andb_true_iff in H as [_ H]. cbn [String.length].
  now rewrite (IH s H).
Qed.

End Format.

(* ===================================================================== *)
(** * Reading a timestamp back *)
(* ===================================================================== *)

Section Parse.

Lemma expect_same c s : expect c (String c s) = Some s.
Proof. cbn [expect]. now rewrite Ascii.eqb_refl. Qed.

Lemma step_literal {A} c rest (k : string -> option A) :
  (expect c (String c EmptyString ++ rest) ≫= k) = k rest.
Proof. rewrite append_String, append_empty, expect_same. reflexivity. Qed.

Lemma step_field {A} w n rest (k : Z * string -> option A) :
  0 <= n < 10 ^ Z.of_nat w ->
  (take_digits w 0 (pad w n ++ rest) ≫= k) = k (n, rest).
Proof. intros H. rewrite take_digits_pad by exact H. reflexivity. Qed.

Lemma parse_year_digit d s :
  0 <= d <= 9 ->
  parse_year (String (digit d) s) = take_digits 4 0 (String (digit d) s).
Proof. revert d. apply digit_cases; reflexivity. Qed.

Lemma parse_year_string y rest :
  -999999 <= y <= 999999 ->
  parse_year (year_string y ++ rest) = Some (y, rest).
Proof.
  intros Hy. unfold year_string.
  destruct (Z.leb_spec 0 y) as [Hpos|Hneg]; cbn [andb].
  - destruct (Z.leb_spec y 9999) as [Hle|Hgt].
    + cbn [pad]. rewrite append_String.
      rewrite parse_year_digit by apply decimal_digit_range.
      apply (take_digits_pad 4 y rest). cbn. lia.
    + rewrite append_String. cbn [parse_year].
      apply take_digits_pad. cbn. lia.
  - rewrite append_String. cbn [parse_year].
    rewrite step_field by (cbn; lia).
    destruct (Z.eqb_spec (- y) 0); [lia|]. now rewrite Z.opp_involutive.
Qed.

Lemma valid_fields_time t :
  valid_fields (YearFromTime t) (MonthFromTime t + 1) (DateFromTime t)
    (HourFromTime t) (MinFromTime t) (SecFromTime t) (msFromTime t) = true.
Proof.
  unfold valid_fields. rewrite Z.add_simpl_r.
  pose proof (MonthFromTime_range t). pose proof (DateFromTime_range t).
  pose proof (HourFromTime_range t). pose proof (MinFromTime_range t).
  pose proof (SecFromTime_range t).
  repeat (apply andb_true_iff; split); try (apply Z.leb_le; lia).
  apply orb_true_iff; left. apply Z.leb_le; lia.
Qed.

(** [Date.parse] inverts [toISOString]: the timestamp denotes exactly the
    time value it was made from, to the millisecond. *)
Lemma Date_parse_time_string t :
  is_time_value t -> Date_parse (time_string t) = Some t.
Proof.
  intros Ht. pose proof (YearFromTime_range t Ht) as Hy.
  pose proof (MonthFromTime_range t). pose proof (DateFromTime_le_31 t).
  pose proof (HourFromTime_range t). pose proof (MinFromTime_range t).
  pose proof (SecFromTime_range t). pose proof (msFromTime_range t).
  unfold Date_parse, time_string.
  rewrite parse_year_string by lia. cbn [mbind option_bind].
  repeat first [ rewrite step_literal
               | rewrite step_field by (cbn; lia) ].
  rewrite expect_same. cbn [mbind option_bind].
  rewrite valid_fields_time, Z.add_simpl_r, MakeDate_fields.
  destruct Ht as [Hlo Hhi]. unfold is_time_valueb.
  destruct (Z.leb_spec (- maxTime) t); [|lia].
  destruct (Z.leb_spec t maxTime); [|lia]. reflexivity.
Qed.

(** Distinct time values have distinct timestamps. *)
Lemma time_string_inj t1 t2 :
  is_time_value t1 -> is_time_value t2 ->
  time_string t1 = time_string t2 -> t1 = t2.
Proof.
  intros H1 H2 E. apply Date_parse_time_string in H1, H2.
  rewrite E in H1. congruence.
Qed.

End Parse.

(* ===================================================================== *)
(** * Timestamps in order *)
(* ===================================================================== *)

Ltac by_compare :=
  first [ apply Z.compare_eq_iff | apply Z.compare_lt_iff | apply Z.compare_gt_iff ].

Section Order.

Lemma ascii_compare_refl c : Ascii.compare c c = Eq.
Proof. unfold Ascii.compare. apply N.compare_refl. Qed.

Lemma compare_literal c r1 r2 :
  String.compare (String c EmptyString ++ r1) (String c EmptyString ++ r2)
  = String.compare r1 r2.
Proof.
  rewrite !append_String, !append_empty. cbn [String.compare].
  now rewrite ascii_compare_refl.
Qed.

Lemma DaysBeforeMonth_step leap m :
  0 <= leap <= 1 -> DaysBeforeMonth leap m <= DaysBeforeMonth leap (m + 1).
Proof. intros Hl. unfold DaysBeforeMonth. case_cmp; lia. Qed.

Lemma DaysBeforeMonth_mono leap m1 m2 :
  0 <= leap <= 1 -> m1 <= m2 ->
  DaysBeforeMonth leap m1 <= DaysBeforeMonth leap m2.
Proof.
  intros Hl Hm. replace m2 with (m1 + Z.of_nat (Z.to_nat (m2 - m1))) by lia.
  induction (Z.to_nat (m2 - m1)) as [|k IH]; [rewrite Z.add_0_r; lia|].
  rewrite Nat2Z.inj_succ, <- Z.add_1_r, Z.add_assoc.
  etransitivity; [exact IH|]. apply DaysBeforeMonth_step, Hl.
Qed.

(** Year, month and day of the month order the days. *)
Lemma compare_date_fields t1 t2 :
  match YearFromTime t1 ?= YearFromTime t2 with
  | Eq => match MonthFromTime t1 + 1 ?= MonthFromTime t2 + 1 with
          | Eq => DateFromTime t1 ?= DateFromTime t2
          | c => c
          end
  | c => c
  end = (Day t1 ?= Day t2).
Proof.
  pose proof (DayWithinYear_month t1) as M1.
  pose proof (DayWithinYear_month t2) as M2.
  pose proof (YearFromDay_spec (Day t1)) as Y1.
  pose proof (YearFromDay_spec (Day t2)) as Y2.
  fold (YearFromTime t1) in Y1. fold (YearFromTime t2) in Y2.
  assert (L1 : 0 <= InLeapYear t1 <= 1) by (destruct (InLeapYear_cases t1); lia).
  unfold DateFromTime. unfold DayWithinYear in *.
  destruct (Z.compare_spec (YearFromTime t1) (YearFromTime t2)) as [Ey|Hy|Hy].
  - assert (El : InLeapYear t2 = InLeapYear t1)
      by (unfold InLeapYear; now rewrite Ey).
    rewrite El, <- Ey in *.
    destruct (Z.compare_spec (MonthFromTime t1 + 1) (MonthFromTime t2 + 1))
      as [Em|Hm|Hm].
    + replace (MonthFromTime t2) with (MonthFromTime t1) in * by lia.
      destruct (Z.compare_spec (Day t1) (Day t2)); by_compare; lia.
    + symmetry; by_compare.
      pose proof (DaysBeforeMonth_mono (InLeapYear t1) (MonthFromTime t1 + 1)
                    (MonthFromTime t2) L1 ltac:(lia)). lia.
    + symmetry; by_compare.
      pose proof (DaysBeforeMonth_mono (InLeapYear t1) (MonthFromTime t2 + 1)
                    (MonthFromTime t1) L1 ltac:(lia)). lia.
  - symmetry; by_compare.
    pose proof (DayFromYear_le (YearFromTime t1 + 1) (YearFromTime t2) ltac:(lia)).
    lia.
  - symmetry; by_compare.
    pose proof (DayFromYear_le (YearFromTime t2 + 1) (YearFromTime t1) ltac:(lia)).
    lia.
Qed.

(** Hour, minute, second and millisecond order the times of a day. *)
Lemma compare_time_fields t1 t2 :
  match HourFromTime t1 ?= HourFromTime t2 with
  | Eq => match MinFromTime t1 ?= MinFromTime t2 with
          | Eq => match SecFromTime t1 ?= SecFromTime t2 with
                  | Eq => msFromTime t1 ?= msFromTime t2
                  | c => c
                  end
          | c => c
          end
  | c => c
  end = (TimeWithinDay t1 ?= TimeWithinDay t2).
Proof.
  pose proof (MinFromTime_range t1). pose proof (MinFromTime_range t2).
  pose proof (SecFromTime_range t1). pose proof (SecFromTime_range t2).
  pose proof (msFromTime_range t1). pose proof (msFromTime_range t2).
  rewrite <- !MakeTime_fields. unfold MakeTime.
  rewrite <- !Z.add_assoc.
  rewrite (compare_lex msPerHour) by (unfold msPerHour, msPerMinute, msPerSecond; lia).
  rewrite (compare_lex msPerMinute) by (unfold msPerMinute, msPerSecond; lia).
  rewrite (compare_lex msPerSecond) by (unfold msPerSecond; lia).
  reflexivity.
Qed.

Lemma compare_day_time t1 t2 :
  match Day t1 ?= Day t2 with
  | Eq => TimeWithinDay t1 ?= TimeWithinDay t2
  | c => c
  end = (t1 ?= t2).
Proof.
  rewrite <- (compare_lex msPerDay)
    by (unfold TimeWithinDay, msPerDay; zdiv).
  f_equal; unfold Day, TimeWithinDay, msPerDay; zdiv.
Qed.

(** Between the years 0000 and 9999 every field has a fixed width, and
    the timestamps, compared as strings, are ordered as the instants. *)
Lemma compare_time_string t1 t2 :
  four_digit_year t1 -> four_digit_year t2 ->
  String.compare (time_string t1) (time_string t2) = (t1 ?= t2).
Proof.
  intros [Hlo1 Hhi1] [Hlo2 Hhi2].
  pose proof (MonthFromTime_range t1). pose proof (MonthFromTime_range t2).
  pose proof (DateFromTime_le_31 t1). pose proof (DateFromTime_le_31 t2).
  pose proof (HourFromTime_range t1). pose proof (HourFromTime_range t2).
  pose proof (MinFromTime_range t1). pose proof (MinFromTime_range t2).
  pose proof (SecFromTime_range t1). pose proof (SecFromTime_range t2).
  pose proof (msFromTime_range t1). pose proof (msFromTime_range t2).
  unfold time_string, year_string.
  destruct (Z.leb_spec 0 (YearFromTime t1)); [|lia].
  destruct (Z.leb_spec (YearFromTime t1) 9999); [|lia].
  destruct (Z.leb_spec 0 (YearFromTime t2)); [|lia].
  destruct (Z.leb_spec (YearFromTime t2) 9999); [|lia].
  cbn [andb].
  repeat first [ rewrite compare_literal
               | rewrite compare_pad by (cbn; lia) ].
  change (String.compare "Z" "Z") with Eq.
  rewrite <- (compare_day_time t1 t2), <- (compare_date_fields t1 t2),
    <- (compare_time_fields t1 t2).
  repeat match goal with
         | |- context [match ?a ?= ?b with _ => _ end] => destruct (a ?= b)
         end; reflexivity.
Qed.

Lemma leb_time_string t1 t2 :
  four_digit_year t1 -> four_digit_year t2 ->
  String.leb (time_string t1) (time_string t2) = (t1 <=? t2).
Proof.
  intros H1 H2. unfold String.leb, Z.leb.
  now rewrite compare_time_string.
Qed.

End Order.

(* ===================================================================== *)
(** * The envelope constructors *)
(* ===================================================================== *)

Section Constructors.

Lemma current_timestamp_run w :
  current_timestamp w = (Normal (time_string (now w)), tick w).
Proof. reflexivity. Qed.

Lemma successResponse_run {T : Type} (v : T) w :
  successResponse v w
  = (Normal (mkBaseResponse true (Some v) None (time_string (now w))), tick w).
Proof. reflexivity. Qed.

Lemma errorResponse_run s w :
  errorResponse s w
  = (Normal (mkBaseResponse false (@None Empty_set) (Some s)
               (time_string (now w))), tick w).
Proof. reflexivity. Qed.

Lemma timestamp_of_run {T : Type} (c : Call T) w :
  timestamp_of c w = (Normal (time_string (now w)), tick w).
Proof. destruct c; reflexivity. Qed.

End Constructors.

(** The scenarios of the documentation, on a clock that shows
    2026-02-23T12:34:56.789Z. *)
Module Scenarios.
Import PrimFloat.

Example scenario_success :
  fst (successResponse (mkConvertResult "<svg/>" 100%float 100%float) world_2026)
  = Normal {| success := true;
              data := Some (mkConvertResult "<svg/>" 100%float 100%float);
              error := None;
              timestamp := "2026-02-23T12:34:56.789Z" |}.
Proof. reflexivity. Qed.

Example scenario_error :
  fst (errorResponse "something went wrong" world_2026)
  = Normal {| success := false;
              data := None;
              error := Some "something went wrong"%string;
              timestamp := "2026-02-23T12:34:56.789Z" |}.
Proof. reflexivity. Qed.

End Scenarios.

(** C1: for every payload [v] of every type, [successResponse v] returns
    an envelope whose [success] is true and whose [data] is the payload
    itself, neither copied nor transformed. *)
Theorem successResponse_payload (T : Type) (v : T) (w : World) :
  exists r : BaseResponse T,
    fst (successResponse v w) = Normal r
    /\ success r = true
    /\ data r = Some v.
Proof. rewrite successResponse_run. eexists; repeat split. Qed.

(** C2: for every text [s], the empty string included, [errorResponse s]
    returns an envelope whose [success] is false and whose [error] is [s]
    verbatim. *)
Theorem errorResponse_message (s : string) (w : World) :
  (exists e : BaseResponse Empty_set,
     fst (errorResponse s w) = Normal e
     /\ success e = false
     /\ error e = Some s)
  /\ (exists e : BaseResponse Empty_set,
        fst (errorResponse EmptyString w) = Normal e
        /\ error e = Some EmptyString).
Proof. rewrite !errorResponse_run. split; eexists; repeat split. Qed.

(** C3: the envelope [errorResponse s] returns has no [data] property at
    all: the field is absent, and asking the object for a [data] property
    answers false. *)
Theorem errorResponse_no_data (s : string) (w : World) :
  exists e : BaseResponse Empty_set,
    fst (errorResponse s w) = Normal e
    /\ data e = None
    /\ hasProperty e "data" = false
    /\ ownKeys e = ("success" :: "error" :: "timestamp" :: nil)%string.
Proof. rewrite errorResponse_run. eexists; repeat split. Qed.

(** C4: every envelope either constructor produces has exactly one of
    [data] and [error], [data] when [success] is true and [error] when it
    is false, and has a [timestamp] in both cases. *)
Theorem constructors_invariant (T : Type) (v : T) (s : string) (w : World) :
  exists (r : BaseResponse T) (e : BaseResponse Empty_set),
    fst (successResponse v w) = Normal r
    /\ fst (errorResponse s w) = Normal e
    /\ envelope_invariant r = true
    /\ envelope_invariant e = true
    /\ (hasProperty r "data" = true /\ hasProperty r "error" = false
        /\ hasProperty r "timestamp" = true)
    /\ (hasProperty e "data" = false /\ hasProperty e "error" = true
        /\ hasProperty e "timestamp" = true).
Proof.
  rewrite successResponse_run, errorResponse_run.
  do 2 eexists; repeat split.
Qed.

(** C7: both constructors are total: whatever the input and whatever the
    state of the world, the call returns an envelope and never throws;
    the date [new Date()] makes is never invalid, so [toISOString] does
    not raise its RangeError. *)
Theorem constructors_total (T : Type) (v : T) (s : string) (w : World) :
  (exists r, successResponse v w = (Normal r, tick w))
  /\ (exists e, errorResponse s w = (Normal e, tick w))
  /\ (forall ex w', successResponse v w <> (Throw ex, w'))
  /\ (forall ex w', errorResponse s w <> (Throw ex, w')).
Proof.
  rewrite successResponse_run, errorResponse_run.
  repeat split; try (eexists; reflexivity); intros ex w' H; discriminate H.
Qed.

(** C9: the two revisions of the file define the same constructors: on
    every payload, every text and every world they return equal
    envelopes and leave the world in the same state. *)
Theorem revisions_agree (T : Type) (v : T) (s : string) (w : World) :
  Rev1.successResponse v w = successResponse v w
  /\ Rev1.errorResponse s w = errorResponse s w.
Proof. split; reflexivity. Qed.

(** C10: the result of a constructor depends on its argument and on the
    one reading of the clock only: equal arguments at equal readings give
    equal envelopes, whatever else differs between the two worlds. *)
Theorem constructors_deterministic (T : Type) (v1 v2 : T) (s1 s2 : string)
    (w1 w2 : World) :
  v1 = v2 -> s1 = s2 -> now w1 = now w2 ->
  fst (successResponse v1 w1) = fst (successResponse v2 w2)
  /\ fst (errorResponse s1 w1) = fst (errorResponse s2 w2).
Proof.
  intros -> -> Hnow. rewrite !successResponse_run, !errorResponse_run.
  cbn [fst]. rewrite Hnow. split; reflexivity.
Qed.

Lemma constructors_deterministic_witness :
  let w1 := {| clock := fun k => 1771850096789 + Z.of_nat k; reads := 0 |} in
  let w2 := {| clock := fun _ => 1771850096789; reads := 7 |} in
  now w1 = now w2
  /\ fst (successResponse 5 w1) = fst (successResponse 5 w2)
  /\ fst (errorResponse "fail" w1) = fst (errorResponse "fail" w2).
Proof.
  cbv zeta. split; [reflexivity|].
  apply (constructors_deterministic Z 5 5 "fail" "fail"); reflexivity.
Defined.

(* ===================================================================== *)
(** * The request shape *)
(* ===================================================================== *)

Section Request.

Lemma optional_delete ty (o : gmap string JsValue) key :
  optional ty (delete key o) key = true.
Proof. unfold optional. now rewrite lookup_delete_eq. Qed.

Lemma optional_delete_ne ty (o : gmap string JsValue) key key' :
  key <> key' -> optional ty (delete key o) key' = optional ty o key'.
Proof. intros H. unfold optional. now rewrite lookup_delete_ne. Qed.

Lemma required_delete_ne ty (o : gmap string JsValue) key key' :
  key <> key' -> required ty (delete key o) key' = required ty o key'.
Proof. intros H. unfold required. now rewrite lookup_delete_ne. Qed.

Lemma required_delete ty (o : gmap string JsValue) key :
  required ty (delete key o) key = false.
Proof. unfold required. now rewrite lookup_delete_eq. Qed.

Lemma object_of_request_valid r : is_ConvertRequest (object_of_request r) = true.
Proof.
  destruct r as [o [f|] [q|] [t|]]; unfold is_ConvertRequest, object_of_request,
    set_optional, required, optional; cbn [original filename quality transparentBg];
    simplify_map_eq; reflexivity.
Qed.

End Request.

(** C8: a request with only [original] set is a valid [ConvertRequest]:
    [filename], [quality] and [transparentBg] are optional and each of
    them may be left out, while [original] may not. *)
Theorem ConvertRequest_original_only (s : string) :
  is_ConvertRequest {[ "original"%string := JsString s ]} = true
  /\ object_of_request (mkConvertRequest s None None None)
     = {[ "original"%string := JsString s ]}
  /\ (forall r : ConvertRequest, is_ConvertRequest (object_of_request r) = true)
  /\ (forall (o : gmap string JsValue) (key : string),
        is_ConvertRequest o = true ->
        key = "filename"%string \/ key = "quality"%string
        \/ key = "transparentBg"%string ->
        is_ConvertRequest (delete key o) = true)
  /\ (forall o : gmap string JsValue,
        is_ConvertRequest (delete "original"%string o) = false).
Proof.
  split; [|split; [|split; [|split]]].
  - apply (object_of_request_valid (mkConvertRequest s None None None)).
  - reflexivity.
  - apply object_of_request_valid.
  - intros o key Hv Hk. unfold is_ConvertRequest in *.
    apply andb_true_iff in Hv as [Hv Ht]. apply andb_true_iff in Hv as [Hv Hq].
    apply andb_true_iff in Hv as [Ho Hf].
    destruct Hk as [ -> | [ -> | -> ] ];
      rewrite ?optional_delete, ?optional_delete_ne, ?required_delete_ne
        by discriminate;
      rewrite ?Ho, ?Hf, ?Hq, ?Ht; reflexivity.
  - intros o. unfold is_ConvertRequest. now rewrite required_delete.
Qed.

(* ===================================================================== *)
(** * Timestamps *)
(* ===================================================================== *)

Section Timestamps.

Variable w : World.
Hypothesis Hmono : clock_monotone w.

Lemma clock_monotone_tick : clock_monotone (tick w).
Proof. intros i j. apply Hmono. Qed.

Lemma now_tick_le : now w <= now (tick w).
Proof. apply Hmono. cbn. lia. Qed.

Lemma now_tick_tick_le : now (tick w) <= now (tick (tick w)).
Proof. apply Hmono. cbn. lia. Qed.

End Timestamps.

Section Runs.

Lemma bracket_run {A : Type} (call : JS A) (a : A) w :
  call (tick w) = (Normal a, tick (tick w)) ->
  bracket call w
  = (Normal (now w, a, now (tick (tick w))), tick (tick (tick w))).
Proof.
  intros H. unfold bracket, mbind, JS_bind, read_clock.
  rewrite H. reflexivity.
Qed.

Lemma consecutive_run {T : Type} (c1 c2 : Call T) w :
  consecutive c1 c2 w
  = (Normal (time_string (now w), time_string (now (tick w))), tick (tick w)).
Proof.
  unfold consecutive, mbind, JS_bind. rewrite !timestamp_of_run. reflexivity.
Qed.

Lemma test_includes_an_ISO_timestamp_run w :
  test_includes_an_ISO_timestamp w
  = (Normal
       (String.leb (time_string (now w)) (time_string (now (tick w)))
        && String.leb (time_string (now (tick w)))
             (time_string (now (tick (tick w))))),
     tick (tick (tick w))).
Proof. reflexivity. Qed.

(** The years between two four-digit years have four digits. *)
Lemma four_digit_year_between a t b :
  a <= t <= b -> four_digit_year a -> four_digit_year b -> four_digit_year t.
Proof.
  intros [Hat Htb] [Ha _] [_ Hb]. unfold four_digit_year.
  pose proof (YearFromTime_mono a t Hat).
  pose proof (YearFromTime_mono t b Htb). lia.
Qed.

(** The repository's test passes whenever the clock does not run
    backwards and stays within the four-digit years. *)
Lemma test_includes_an_ISO_timestamp_passes w :
  clock_monotone w ->
  four_digit_year (now w) -> four_digit_year (now (tick (tick w))) ->
  fst (test_includes_an_ISO_timestamp w) = Normal true.
Proof.
  intros Hmono Hb Ha. rewrite test_includes_an_ISO_timestamp_run. cbn [fst].
  pose proof (now_tick_le w Hmono) as H1.
  pose proof (now_tick_tick_le w Hmono) as H2.
  assert (Ht : four_digit_year (now (tick w)))
    by (apply (four_digit_year_between (now w) _ (now (tick (tick w))));
        [split|..]; assumption).
  rewrite !leb_time_string by assumption.
  f_equal. apply andb_true_iff; split; apply Z.leb_le; assumption.
Qed.

(** It fails when the year 9999 ends between the first read of the clock
    and the call. *)
Example test_includes_an_ISO_timestamp_fails :
  fst (test_includes_an_ISO_timestamp world_end_of_9999) = Normal false.
Proof. reflexivity. Qed.

Lemma world_2026_valid : clock_valid world_2026.
Proof. intros k. unfold is_time_value, maxTime. cbn. lia. Qed.

Lemma world_2026_monotone : clock_monotone world_2026.
Proof. intros i j H. cbn. lia. Qed.

Lemma world_end_of_9999_valid : clock_valid world_end_of_9999.
Proof. intros k. unfold is_time_value, maxTime. cbn. lia. Qed.

Lemma world_end_of_9999_monotone : clock_monotone world_end_of_9999.
Proof. intros i j H. cbn. lia. Qed.

Lemma world_year_10000_monotone : clock_monotone world_year_10000.
Proof. intros i j H. cbn. lia. Qed.

Lemma world_set_back_valid : clock_valid world_set_back.
Proof.
  intros k. unfold is_time_value, maxTime. cbn.
  destruct (k =? 0)%nat; lia.
Qed.

End Runs.

(** C5, as stated, fails twice.  At the first instant of the year 10000
    the timestamp is [+010000-01-01T00:00:00.000Z], an expanded year,
    which is not of the form [YYYY-MM-DDTHH:mm:ss.sssZ]; and when the
    clock is set back during the call, the instant of the timestamp
    (5 ms) is earlier than the reading taken just before the call
    (10 ms). *)
Lemma timestamp_form_counterexample :
  (clock_monotone world_year_10000
   /\ fst (successResponse 0 world_year_10000)
      = Normal (mkBaseResponse true (Some 0) None
                  "+010000-01-01T00:00:00.000Z")
   /\ matches_template simple_format "+010000-01-01T00:00:00.000Z" = false)
  /\ (fst (bracket (successResponse 0) world_set_back)
      = Normal (10, mkBaseResponse true (Some 0) None
                      "1970-01-01T00:00:00.005Z", 5)
      /\ Date_parse "1970-01-01T00:00:00.005Z" = Some 5
      /\ ~ 10 <= 5).
Proof.
  split; [split; [exact world_year_10000_monotone|split; reflexivity]|].
  split; [reflexivity|split; [reflexivity|lia]].
Qed.

(** C5, amended: a call of either constructor reads the clock once, and
    the timestamp of its envelope is that reading [t] (a time value, as
    every reading is) written by [toISOString]: it reads back as [t]
    exactly, to the millisecond, and the text has the form
    [YYYY-MM-DDTHH:mm:ss.sssZ] when [t] falls in the years 0000 to 9999,
    [+YYYYYY-MM-DDTHH:mm:ss.sssZ] after them and
    [-YYYYYY-MM-DDTHH:mm:ss.sssZ] before them.  Provided the clock does
    not run backwards, [t] lies between the readings taken just before
    and just after the call. *)
Theorem timestamp_current_instant (T : Type) (v : T) (s : string) (w : World) :
  clock_valid w ->
  exists (t before after : Z) (r : BaseResponse T) (e : BaseResponse Empty_set),
    t = now (tick w)
    /\ bracket (successResponse v) w
       = (Normal (before, r, after), tick (tick (tick w)))
    /\ bracket (errorResponse s) w
       = (Normal (before, e, after), tick (tick (tick w)))
    /\ successResponse v (tick w) = (Normal r, tick (tick w))
    /\ errorResponse s (tick w) = (Normal e, tick (tick w))
    /\ timestamp r = time_string t
    /\ timestamp e = time_string t
    /\ Date_parse (time_string t) = Some t
    /\ (clock_monotone w -> before <= t <= after)
    /\ (four_digit_year t ->
        matches_template simple_format (time_string t) = true)
    /\ (9999 < YearFromTime t ->
        matches_template expanded_plus_format (time_string t) = true)
    /\ (YearFromTime t < 0 ->
        matches_template expanded_minus_format (time_string t) = true).
Proof.
  intros Hvalid.
  exists (now (tick w)), (now w), (now (tick (tick w))).
  do 2 eexists. split; [reflexivity|].
  split; [apply bracket_run, successResponse_run|].
  split; [apply bracket_run, errorResponse_run|].
  split; [apply successResponse_run|]. split; [apply errorResponse_run|].
  split; [reflexivity|]. split; [reflexivity|].
  split; [apply Date_parse_time_string, Hvalid|].
  split.
  - intros Hmono.
    split; [apply now_tick_le, Hmono|apply now_tick_tick_le, Hmono].
  - split; [apply time_string_simple|].
    split; [apply time_string_expanded_plus|apply time_string_expanded_minus].
Qed.

Lemma timestamp_current_instant_witness :
  clock_valid world_2026 /\ clock_monotone world_2026
  /\ exists (t before after : Z) (r : BaseResponse Z) (e : BaseResponse Empty_set),
       t = now (tick world_2026)
       /\ bracket (successResponse 42) world_2026
          = (Normal (before, r, after), tick (tick (tick world_2026)))
       /\ bracket (errorResponse "fail") world_2026
          = (Normal (before, e, after), tick (tick (tick world_2026)))
       /\ successResponse 42 (tick world_2026)
          = (Normal r, tick (tick world_2026))
       /\ errorResponse "fail" (tick world_2026)
          = (Normal e, tick (tick world_2026))
       /\ timestamp r = time_string t
       /\ timestamp e = time_string t
       /\ Date_parse (time_string t) = Some t
       /\ (clock_monotone world_2026 -> before <= t <= after)
       /\ (four_digit_year t ->
           matches_template simple_format (time_string t) = true)
       /\ (9999 < YearFromTime t ->
           matches_template expanded_plus_format (time_string t) = true)
       /\ (YearFromTime t < 0 ->
           matches_template expanded_minus_format (time_string t) = true).
Proof.
  split; [exact world_2026_valid|]. split; [exact world_2026_monotone|].
  exact (timestamp_current_instant Z 42 "fail" world_2026
           world_2026_valid).
Defined.

(** C6, as stated, fails when the year 9999 ends between the two calls:
    the clock does not run backwards, yet the second timestamp,
    [+010000-01-01T00:00:00.000Z], is smaller than the first,
    [9999-12-31T23:59:59.999Z], in the order of strings. *)
Lemma timestamps_order_counterexample :
  clock_monotone world_end_of_9999
  /\ fst (consecutive (CallSuccess 0) (CallSuccess 0) world_end_of_9999)
     = Normal ("9999-12-31T23:59:59.999Z", "+010000-01-01T00:00:00.000Z")%string
  /\ String.leb "9999-12-31T23:59:59.999Z" "+010000-01-01T00:00:00.000Z" = false.
Proof.
  split; [exact world_end_of_9999_monotone|split; reflexivity].
Qed.

(** C6, amended: with a clock that does not run backwards, the
    timestamps of two consecutive calls of either constructor, in either
    order and whatever the arguments, denote instants of which the second
    is not earlier than the first; and when both instants fall in the
    years 0000 to 9999, the second timestamp is greater than or equal to
    the first as a string. *)
Theorem timestamps_non_decreasing (T : Type) (c1 c2 : Call T) (w : World) :
  clock_valid w -> clock_monotone w ->
  exists (ts1 ts2 : string) (t1 t2 : Z),
    fst (consecutive c1 c2 w) = Normal (ts1, ts2)
    /\ Date_parse ts1 = Some t1
    /\ Date_parse ts2 = Some t2
    /\ t1 <= t2
    /\ (four_digit_year t1 -> four_digit_year t2 ->
        String.leb ts1 ts2 = true).
Proof.
  intros Hvalid Hmono. rewrite consecutive_run.
  exists (time_string (now w)), (time_string (now (tick w))),
    (now w), (now (tick w)).
  pose proof (now_tick_le w Hmono) as Hle.
  split; [reflexivity|].
  split; [apply Date_parse_time_string, Hvalid|].
  split; [apply Date_parse_time_string, Hvalid|].
  split; [exact Hle|].
  intros H1 H2. rewrite leb_time_string by assumption.
  apply Z.leb_le, Hle.
Qed.

Lemma timestamps_non_decreasing_witness :
  clock_valid world_2026 /\ clock_monotone world_2026
  /\ exists (ts1 ts2 : string) (t1 t2 : Z),
       fst (consecutive (CallError "fail") (CallSuccess 42) world_2026)
       = Normal (ts1, ts2)
       /\ Date_parse ts1 = Some t1
       /\ Date_parse ts2 = Some t2
       /\ t1 <= t2
       /\ (four_digit_year t1 -> four_digit_year t2 ->
           String.leb ts1 ts2 = true).
Proof.
  split; [exact world_2026_valid|]. split; [exact world_2026_monotone|].
  exact (timestamps_non_decreasing Z (CallError "fail") (CallSuccess 42)
           world_2026 world_2026_valid world_2026_monotone).
Defined.

(* ===================================================================== *)
(** * Further properties: the shapes *)
(* ===================================================================== *)

Section Shapes.

Lemma is_ConvertRequest_split (o : gmap string JsValue) :
  is_ConvertRequest o = true ->
  required is_string o "original" = true
  /\ optional is_string o "filename" = true
  /\ optional is_number o "quality" = true
  /\ optional is_boolean o "transparentBg" = true.
Proof.
  unfold is_ConvertRequest. intros H.
  apply andb_true_iff in H as [H Ht]. apply andb_true_iff in H as [H Hq].
  apply andb_true_iff in H as [Ho Hf]. auto.
Qed.

End Shapes.

(** X2: the two revisions of [ConvertRequest] are compatible in one
    direction.  An object assignable to the current interface is
    assignable to the first one, and the literal of every first-revision
    request is assignable to the current interface.  The first revision
    does not look at [quality] and [transparentBg]: whatever value is
    stored there, it accepts the object or not as before.  The current
    interface refuses every object whose [quality] is neither undefined
    nor a number, or whose [transparentBg] is neither undefined nor a
    boolean; with the property set to undefined or to a value of its
    type, the object is accepted exactly when it is accepted without
    the property. *)
Theorem ConvertRequest_revisions :
  (forall o : gmap string JsValue,
     is_ConvertRequest o = true -> is_ConvertRequest_rev1 o = true)
  /\ (forall r : Rev1.ConvertRequest,
        is_ConvertRequest_rev1 (object_of_request_rev1 r) = true
        /\ is_ConvertRequest (object_of_request_rev1 r) = true)
  /\ (forall (o : gmap string JsValue) (v : JsValue),
        is_ConvertRequest_rev1 (<["quality"%string := v]> o)
        = is_ConvertRequest_rev1 o
        /\ is_ConvertRequest_rev1 (<["transparentBg"%string := v]> o)
           = is_ConvertRequest_rev1 o)
  /\ (forall (o : gmap string JsValue) (v : JsValue),
        is_ConvertRequest (<["quality"%string := v]> o)
        = (if v is JsUndefined then true else is_number v)
          && is_ConvertRequest (delete "quality"%string o))
  /\ (forall (o : gmap string JsValue) (v : JsValue),
        is_ConvertRequest (<["transparentBg"%string := v]> o)
        = (if v is JsUndefined then true else is_boolean v)
          && is_ConvertRequest (delete "transparentBg"%string o))
  /\ (forall (o : gmap string JsValue) (v : JsValue),
        v <> JsUndefined -> is_number v = false ->
        is_ConvertRequest (<["quality"%string := v]> o) = false)
  /\ (forall (o : gmap string JsValue) (v : JsValue),
        v <> JsUndefined -> is_boolean v = false ->
        is_ConvertRequest (<["transparentBg"%string := v]> o) = false).
Proof.
  assert (Hq : forall (o : gmap string JsValue) (v : JsValue),
             is_ConvertRequest (<["quality"%string := v]> o)
             = (if v is JsUndefined then true else is_number v)
               && is_ConvertRequest (delete "quality"%string o)).
  { intros o v. unfold is_ConvertRequest.
    rewrite (optional_delete is_number o "quality").
    rewrite !required_delete_ne, !optional_delete_ne by discriminate.
    unfold required, optional. simplify_map_eq.
    destruct v, (o !! "original"%string) as [[]|],
      (o !! "filename"%string) as [[]|],
      (o !! "transparentBg"%string) as [[]|]; reflexivity. }
  assert (Ht : forall (o : gmap string JsValue) (v : JsValue),
             is_ConvertRequest (<["transparentBg"%string := v]> o)
             = (if v is JsUndefined then true else is_boolean v)
               && is_ConvertRequest (delete "transparentBg"%string o)).
  { intros o v. unfold is_ConvertRequest.
    rewrite (optional_delete is_boolean o "transparentBg").
    rewrite !required_delete_ne, !optional_delete_ne by discriminate.
    unfold required, optional. simplify_map_eq.
    destruct v, (o !! "original"%string) as [[]|],
      (o !! "filename"%string) as [[]|],
      (o !! "quality"%string) as [[]|]; reflexivity. }
  split; [|split; [|split; [|split; [|split; [|split]]]]].
  - intros o H. apply is_ConvertRequest_split in H as (Ho & Hf & _).
    unfold is_ConvertRequest_rev1. now rewrite Ho, Hf.
  - intros [o [f|]]; unfold is_ConvertRequest, is_ConvertRequest_rev1,
      object_of_request_rev1, set_optional, required, optional;
      cbn [Rev1.original Rev1.filename]; simplify_map_eq; split; reflexivity.
  - intros o v. unfold is_ConvertRequest_rev1, required, optional.
    simplify_map_eq. split; reflexivity.
  - exact Hq.
  - exact Ht.
  - intros o v Hu Hn. rewrite Hq, Hn. destruct v; [congruence|reflexivity..].
  - intros o v Hu Hb. rewrite Ht, Hb. destruct v; [congruence|reflexivity..].
Qed.

Lemma ConvertRequest_revisions_witness :
  let o : gmap string JsValue := {[ "original"%string := JsString "img" ]} in
  is_ConvertRequest o = true
  /\ is_ConvertRequest_rev1 o = true
  /\ is_ConvertRequest (<["quality"%string := JsNull]> o) = false
  /\ is_ConvertRequest (<["quality"%string := JsBoolean true]> o) = false
  /\ is_ConvertRequest (<["transparentBg"%string := JsNull]> o) = false
  /\ is_ConvertRequest_rev1 (<["quality"%string := JsNull]> o)
     = is_ConvertRequest_rev1 o.
Proof.
  cbv zeta.
  destruct ConvertRequest_revisions as (Hsub & _ & Hrev1 & _ & _ & Hq & Ht).
  split; [vm_compute; reflexivity|].
  split; [apply Hsub; vm_compute; reflexivity|].
  split; [apply Hq; [discriminate|reflexivity]|].
  split; [apply Hq; [discriminate|reflexivity]|].
  split; [apply Ht; [discriminate|reflexivity]|].
  apply Hrev1.
Defined.

(* ===================================================================== *)
(** * Further properties: the tests and the timestamps *)
(* ===================================================================== *)

Section MoreTimestamps.

Lemma time_string_length t :
  String.length (time_string t)
  = if (0 <=? YearFromTime t) && (YearFromTime t <=? 9999) then 24%nat
    else 27%nat.
Proof.
  destruct (Z.leb_spec 0 (YearFromTime t)) as [Hpos|Hneg]; cbn [andb].
  - destruct (Z.leb_spec (YearFromTime t) 9999) as [Hle|Hgt].
    + apply (matches_template_length simple_format), time_string_simple.
      split; assumption.
    + apply (matches_template_length expanded_plus_format),
        time_string_expanded_plus, Hgt.
  - apply (matches_template_length expanded_minus_format),
      time_string_expanded_minus, Hneg.
Qed.

Lemma ticks_0 w : ticks 0 w = w.
Proof. destruct w as [c r]. unfold ticks. cbn. f_equal. lia. Qed.

Lemma ticks_S n w : ticks n (tick w) = ticks (S n) w.
Proof. unfold ticks, tick. cbn. f_equal. lia. Qed.

Lemma timestamps_of_run {T : Type} (cs : list (Call T)) w :
  timestamps_of cs w
  = (Normal (map (fun k => time_string (clock w (reads w + k)))
               (seq 0 (List.length cs))),
     ticks (List.length cs) w).
Proof.
  revert w. induction cs as [|c cs IH]; intros w.
  - cbn. now rewrite ticks_0.
  - cbn [timestamps_of]. unfold mbind, JS_bind.
    rewrite timestamp_of_run, IH. cbn [List.length seq map].
    rewrite ticks_S. unfold mret, JS_ret. do 3 f_equal.
    + unfold now. now rewrite Nat.add_0_r.
    + rewrite <- seq_shift, map_map. apply map_ext. intros k.
      cbn [tick clock reads]. now rewrite Nat.add_succ_r.
Qed.

End MoreTimestamps.

Section MoreWorlds.

Lemma four_digit_year_2026 t :
  1771850096789 <= t <= 1771850097789 -> four_digit_year t.
Proof.
  intros H.
  apply (four_digit_year_between 1771850096789 t 1771850097789 H);
    unfold four_digit_year; vm_compute; split; intro E; discriminate E.
Qed.

Lemma world_2026_four_digit k : four_digit_year (clock world_2026 k).
Proof. apply four_digit_year_2026. cbn. lia. Qed.

End MoreWorlds.

(** X4: the three tests of the repository that do not look at the clock
    pass in every world: the success test for every payload that
    [toEqual] finds equal to itself, the two error tests for every
    message. *)
Theorem repository_tests_pass (T : Type) (toEqual : T -> T -> bool)
    (payload : T) (message : string) (w : World) :
  toEqual payload payload = true ->
  fst (test_returns_a_success_response_with_data toEqual payload w) = Normal true
  /\ fst (test_returns_an_error_response_with_message message w) = Normal true
  /\ fst (test_does_not_include_data_field message w) = Normal true.
Proof.
  intros Hrefl.
  unfold test_returns_a_success_response_with_data,
    test_returns_an_error_response_with_message,
    test_does_not_include_data_field, mbind, JS_bind.
  rewrite successResponse_run, errorResponse_run.
  cbn [fst mret JS_ret success data error option_eqb].
  rewrite Hrefl, String.eqb_refl. repeat split.
Qed.

Module TestWitness.
Import PrimFloat.

Lemma repository_tests_pass_witness :
  ConvertResult_eqb (mkConvertResult "<svg/>" 100%float 100%float)
    (mkConvertResult "<svg/>" 100%float 100%float) = true
  /\ fst (test_returns_a_success_response_with_data ConvertResult_eqb
            (mkConvertResult "<svg/>" 100%float 100%float) world_2026)
     = Normal true
  /\ fst (test_returns_an_error_response_with_message
            "something went wrong" world_2026) = Normal true
  /\ fst (test_does_not_include_data_field
            "something went wrong" world_2026) = Normal true.
Proof.
  split; [vm_compute; reflexivity|].
  apply (repository_tests_pass ConvertResult ConvertResult_eqb
           (mkConvertResult "<svg/>" 100%float 100%float)
           "something went wrong" world_2026).
  vm_compute; reflexivity.
Defined.

End TestWitness.

(** X5: the test [includes an ISO timestamp] compares three timestamps
    as strings; when the three readings of the clock fall in the years
    0000 to 9999 it passes exactly when the readings do not decrease. *)
Theorem ISO_timestamp_test_result (w : World) :
  four_digit_year (now w) ->
  four_digit_year (now (tick w)) ->
  four_digit_year (now (tick (tick w))) ->
  fst (test_includes_an_ISO_timestamp w)
  = Normal ((now w <=? now (tick w))
            && (now (tick w) <=? now (tick (tick w)))).
Proof.
  intros H0 H1 H2. rewrite test_includes_an_ISO_timestamp_run. cbn [fst].
  now rewrite !leb_time_string by assumption.
Qed.

Lemma ISO_timestamp_test_result_witness :
  four_digit_year (now world_2026)
  /\ four_digit_year (now (tick world_2026))
  /\ four_digit_year (now (tick (tick world_2026)))
  /\ fst (test_includes_an_ISO_timestamp world_2026)
     = Normal ((now world_2026 <=? now (tick world_2026))
               && (now (tick world_2026) <=? now (tick (tick world_2026)))).
Proof.
  assert (F0 : four_digit_year (now world_2026))
    by (unfold four_digit_year; vm_compute; split; intro E; discriminate E).
  assert (F1 : four_digit_year (now (tick world_2026)))
    by (unfold four_digit_year; vm_compute; split; intro E; discriminate E).
  assert (F2 : four_digit_year (now (tick (tick world_2026))))
    by (unfold four_digit_year; vm_compute; split; intro E; discriminate E).
  split; [exact F0|]. split; [exact F1|]. split; [exact F2|].
  exact (ISO_timestamp_test_result world_2026 F0 F1 F2).
Defined.

(** X6: timestamps tell instants apart to the millisecond: two calls of
    either constructor return the same timestamp exactly when they read
    the same time value. *)
Theorem timestamps_equal_iff (T : Type) (c1 c2 : Call T) (w1 w2 : World) :
  is_time_value (now w1) -> is_time_value (now w2) ->
  fst (timestamp_of c1 w1) = fst (timestamp_of c2 w2) <-> now w1 = now w2.
Proof.
  intros H1 H2. rewrite !timestamp_of_run. cbn [fst]. split.
  - intros E. injection E as E. now apply time_string_inj.
  - intros ->. reflexivity.
Qed.

Lemma timestamps_equal_iff_witness :
  is_time_value (now world_2026) /\ is_time_value (now (tick world_2026))
  /\ (fst (timestamp_of (CallSuccess 42) world_2026)
      = fst (timestamp_of (@CallError Z "fail") (tick world_2026))
      <-> now world_2026 = now (tick world_2026)).
Proof.
  assert (V0 : is_time_value (now world_2026))
    by (unfold is_time_value; vm_compute; split; intro E; discriminate E).
  assert (V1 : is_time_value (now (tick world_2026)))
    by (unfold is_time_value; vm_compute; split; intro E; discriminate E).
  split; [exact V0|]. split; [exact V1|].
  exact (timestamps_equal_iff Z (CallSuccess 42) (CallError "fail")
           world_2026 (tick world_2026) V0 V1).
Defined.

(** X7: the timestamp of every envelope is 24 characters long when the
    reading falls in the years 0000 to 9999 and 27 characters long
    otherwise; it is never empty. *)
Theorem timestamp_length (T : Type) (c : Call T) (w : World) :
  exists ts : string,
    fst (timestamp_of c w) = Normal ts
    /\ String.length ts
       = (if (0 <=? YearFromTime (now w)) && (YearFromTime (now w) <=? 9999)
          then 24%nat else 27%nat)
    /\ ts <> EmptyString.
Proof.
  rewrite timestamp_of_run. eexists. split; [reflexivity|].
  split; [apply time_string_length|].
  intros E. pose proof (time_string_length (now w)) as L. rewrite E in L.
  destruct ((0 <=? YearFromTime (now w)) && (YearFromTime (now w) <=? 9999));
    discriminate L.
Qed.

(** X8: within the years 0000 to 9999 the order of the timestamps as
    strings is the order of the instants: comparing the timestamps of two
    calls gives the result of comparing the two readings, so an earlier
    call has the smaller timestamp and equal timestamps mean one
    instant. *)
Theorem timestamps_compare (T : Type) (c1 c2 : Call T) (w1 w2 : World) :
  four_digit_year (now w1) -> four_digit_year (now w2) ->
  exists ts1 ts2 : string,
    fst (timestamp_of c1 w1) = Normal ts1
    /\ fst (timestamp_of c2 w2) = Normal ts2
    /\ String.compare ts1 ts2 = (now w1 ?= now w2)
    /\ String.ltb ts1 ts2 = (now w1 <? now w2).
Proof.
  intros H1 H2. rewrite !timestamp_of_run. do 2 eexists.
  split; [reflexivity|]. split; [reflexivity|].
  unfold String.ltb, Z.ltb. rewrite compare_time_string by assumption.
  split; reflexivity.
Qed.

Lemma timestamps_compare_witness :
  four_digit_year (now world_2026) /\ four_digit_year (now (tick world_2026))
  /\ exists ts1 ts2 : string,
       fst (timestamp_of (CallSuccess 42) world_2026) = Normal ts1
       /\ fst (timestamp_of (@CallError Z "fail") (tick world_2026)) = Normal ts2
       /\ String.compare ts1 ts2 = (now world_2026 ?= now (tick world_2026))
       /\ String.ltb ts1 ts2 = (now world_2026 <? now (tick world_2026)).
Proof.
  assert (F0 : four_digit_year (now world_2026))
    by (unfold four_digit_year; vm_compute; split; intro E; discriminate E).
  assert (F1 : four_digit_year (now (tick world_2026)))
    by (unfold four_digit_year; vm_compute; split; intro E; discriminate E).
  split; [exact F0|]. split; [exact F1|].
  exact (timestamps_compare Z (CallSuccess 42) (CallError "fail")
           world_2026 (tick world_2026) F0 F1).
Defined.

(** X9: any number of calls, of either constructor and in any order,
    read the clock once each: [n] calls leave the clock [n] reads
    further, return [n] timestamps, and the timestamp of the [i]-th call
    is the [i]-th reading. *)
Theorem calls_read_clock_once_each (T : Type) (cs : list (Call T)) (w : World) :
  exists tss : list string,
    timestamps_of cs w = (Normal tss, ticks (List.length cs) w)
    /\ List.length tss = List.length cs
    /\ forall i : nat, (i < List.length cs)%nat ->
         nth_error tss i = Some (time_string (clock w (reads w + i))).
Proof.
  rewrite timestamps_of_run. eexists. split; [reflexivity|].
  split; [now rewrite length_map, length_seq|].
  intros i Hi. rewrite nth_error_map, nth_error_seq.
  apply Nat.ltb_lt in Hi. now rewrite Hi.
Qed.

(** X10: with a clock that does not run backwards and stays within the
    years 0000 to 9999, the timestamps of any number of calls come out
    sorted: the timestamp of an earlier call is smaller than or equal to
    that of a later one, as strings. *)
Theorem timestamps_sorted (T : Type) (cs : list (Call T)) (w : World) :
  clock_monotone w -> (forall k, four_digit_year (clock w k)) ->
  exists tss : list string,
    fst (timestamps_of cs w) = Normal tss
    /\ forall (i j : nat) (a b : string),
         (i <= j)%nat -> nth_error tss i = Some a -> nth_error tss j = Some b ->
         String.leb a b = true.
Proof.
  intros Hmono Hfour. rewrite timestamps_of_run. eexists.
  split; [reflexivity|].
  intros i j a b Hij Ha Hb.
  rewrite nth_error_map, nth_error_seq in Ha, Hb.
  destruct (i <? List.length cs)%nat; [|discriminate Ha].
  destruct (j <? List.length cs)%nat; [|discriminate Hb].
  injection Ha as <-. injection Hb as <-.
  rewrite leb_time_string by apply Hfour.
  apply Z.leb_le, Hmono. lia.
Qed.

Lemma timestamps_sorted_witness :
  clock_monotone world_2026
  /\ (forall k, four_digit_year (clock world_2026 k))
  /\ exists tss : list string,
       fst (timestamps_of
              (CallSuccess 42 :: CallError "fail" :: CallSuccess 7 :: nil)
              world_2026) = Normal tss
       /\ forall (i j : nat) (a b : string),
            (i <= j)%nat -> nth_error tss i = Some a -> nth_error tss j = Some b ->
            String.leb a b = true.
Proof.
  split; [exact world_2026_monotone|]. split; [exact world_2026_four_digit|].
  exact (timestamps_sorted Z
           (CallSuccess 42 :: CallError "fail" :: CallSuccess 7 :: nil)
           world_2026 world_2026_monotone world_2026_four_digit).
Defined.
